(** * gradio_app.py: the conversion invoker and its handlers

    A shallow embedding of the functions of [gradio_app.py] that build the
    command line of the external [pdf2html] executable, run it, and report
    the outcome: [convert_pdf], [convert_folder], [handle_convert],
    [handle_batch] and [generate_command].

    Python [str] values are sequences of Unicode code points.  Everything
    outside the program (the child process, the file system, pathlib, the
    Unicode tables, float formatting) is gathered in one record [Env];
    the functions of the program take it as their first argument. *)

From Stdlib Require Import List String Ascii ZArith NArith Bool Lia DecimalString.
Import ListNotations.

Local Open Scope N_scope.

(* ===================================================================== *)
(** ** Python strings *)
(* ===================================================================== *)

Module Py.

(** A code point, and a [str]. *)
Definition char := N.
Definition str := list char.

(** An ASCII literal of the source, as a [str]. *)
Definition lit (s : string) : str := map N_of_ascii (list_ascii_of_string s).

Definition str_eq_dec : forall a b : str, {a = b} + {a <> b} :=
  list_eq_dec N.eq_dec.

Definition str_eqb (a b : str) : bool := if str_eq_dec a b then true else false.

(** [bool(s)]: a string is true when it is not empty. *)
Definition truthy (s : str) : bool :=
  match s with [] => false | _ :: _ => true end.

(** [s.startswith(prefix)] *)
Fixpoint startswith (prefix s : str) : bool :=
  match prefix, s with
  | [], _ => true
  | _ :: _, [] => false
  | p :: prefix', c :: s' => N.eqb p c && startswith prefix' s'
  end.

(** [needle in s] *)
Fixpoint contains (needle s : str) : bool :=
  startswith needle s ||
  match s with
  | [] => false
  | _ :: s' => contains needle s'
  end.

(** [sep.join(parts)] *)
Fixpoint join (sep : str) (parts : list str) : str :=
  match parts with
  | [] => []
  | [p] => p
  | p :: rest => p ++ sep ++ join sep rest
  end.

Fixpoint dropwhile (f : char -> bool) (s : str) : str :=
  match s with
  | [] => []
  | c :: s' => if f c then dropwhile f s' else s
  end.

(** [s.lstrip(chars)] and [s.rstrip(chars)], the set given as a predicate. *)
Definition lstrip_by (f : char -> bool) (s : str) : str := dropwhile f s.
Definition rstrip_by (f : char -> bool) (s : str) : str :=
  rev (dropwhile f (rev s)).

(** [s.rstrip('/')] *)
Definition rstrip_slash (s : str) : str := rstrip_by (N.eqb 47) s.

(** The code points [str.strip()] removes (CPython's [Py_UNICODE_ISSPACE]). *)
Definition isspace (c : char) : bool :=
  ((9 <=? c) && (c <=? 13)) || ((28 <=? c) && (c <=? 32))
  || (c =? 133) || (c =? 160) || (c =? 5760)
  || ((8192 <=? c) && (c <=? 8202))
  || (c =? 8232) || (c =? 8233) || (c =? 8239) || (c =? 8287)
  || (c =? 12288).

(** [s.strip()] *)
Definition strip (s : str) : str := rstrip_by isspace (lstrip_by isspace s).

(** ["%d" % z] *)
Definition decimal (z : Z) : str := lit (NilZero.string_of_int (Z.to_int z)).

(** The lower-case hexadecimal digit of a value below 16. *)
Definition hex_digit (d : N) : char :=
  if d <? 10 then 48 + d else 87 + d.

(** [c] as exactly [n] lower-case hexadecimal digits. *)
Fixpoint hex (n : nat) (c : N) : str :=
  match n with
  | O => []
  | S n' => hex n' (c / 16) ++ [hex_digit (c mod 16)]
  end.

Section Repr.
(** [str.isprintable] on one code point, from the Unicode database. *)
Variable isprintable : char -> bool.

(** The quote [repr] picks: a double quote only when the text has a
    single quote and no double quote. *)
Definition repr_quote (s : str) : char :=
  if existsb (N.eqb 39) s && negb (existsb (N.eqb 34) s) then 34 else 39.

Definition repr_char (quote c : char) : str :=
  if (c =? quote) || (c =? 92) then [92; c]
  else if c =? 9 then lit "\t"
  else if c =? 10 then lit "\n"
  else if c =? 13 then lit "\r"
  else if (c <? 32) || (c =? 127) then lit "\x" ++ hex 2 c
  else if c <? 127 then [c]
  else if isprintable c then [c]
  else if c <=? 255 then lit "\x" ++ hex 2 c
  else if c <=? 65535 then lit "\u" ++ hex 4 c
  else lit "\U" ++ hex 8 c.

(** [repr(s)] for a [str]. *)
Definition repr_str (s : str) : str :=
  let q := repr_quote s in
  [q] ++ flat_map (repr_char q) s ++ [q].

(** [repr(l)], which is also [str(l)], for a list of [str]. *)
Definition repr_list (l : list str) : str :=
  lit "[" ++ join (lit ", ") (map repr_str l) ++ lit "]".
End Repr.

End Py.

Import Py.

(* ===================================================================== *)
(** ** Exceptions and the child process *)
(* ===================================================================== *)

(** The exceptions the program can meet: [subprocess.CalledProcessError]
    with its four attributes, and any other subclass of [Exception]
    (FileNotFoundError, PermissionError, UnicodeDecodeError, ...) with the
    text [str(e)] gives. *)
Inductive exn : Type :=
| CalledProcessError (returncode : Z) (cmd : list str) (output stderr : str)
| OtherException (class_name message : str).

(** What [subprocess.run(..., capture_output=True, text=True)] hands back
    when the child could be started and has ended. *)
Record CompletedProcess : Type := mkCompleted {
  returncode : Z;
  stdout : str;
  stderr : str
}.

(** The world around the program.  Each answer is the one the system gives
    at the moment the program asks; no function of the program puts the
    same question twice in one run. *)
Record Env : Type := mkEnv {
  (** start the child with this argument vector and wait for it *)
  launch : list str -> exn + CompletedProcess;
  (** [os.path.isdir] *)
  isdir : str -> bool;
  (** the names of the entries [Path(folder).iterdir()] produces *)
  iterdir : str -> exn + list str;
  (** [path.stat().st_size], the path given by [str(path)] *)
  stat_size : str -> exn + Z;
  (** [open(path, 'r', encoding='utf-8').read()] *)
  read_text : str -> exn + str;
  (** [str(Path(a) / b / c)] from the segments [a; b; c] *)
  Path_str : list str -> str;
  (** [Path(p).stem] *)
  Path_stem : str -> str;
  (** [.suffix] of a path whose last component is the given name *)
  Path_suffix : str -> str;
  (** [str.lower] *)
  lower : str -> str;
  (** [f"{size / 1024:.1f}"] for a file size in bytes *)
  format_kb : Z -> str;
  (** [str.isprintable] on one code point *)
  isprintable : char -> bool;
  (** the name of [signal.Signals(n)], if [n] is a signal of the platform *)
  signal_name : Z -> option str
}.

(** [CalledProcessError.__str__]. *)
Definition CalledProcessError_str
    (printable : char -> bool) (signals : Z -> option str)
    (rc : Z) (cmd : list str) : str :=
  if (rc <? 0)%Z then
    match signals (- rc)%Z with
    | Some name =>
        lit "Command '" ++ repr_list printable cmd ++ lit "' died with <Signals."
          ++ name ++ lit ": " ++ decimal (- rc) ++ lit ">."
    | None =>
        lit "Command '" ++ repr_list printable cmd
          ++ lit "' died with unknown signal " ++ decimal (- rc) ++ lit "."
    end
  else
    lit "Command '" ++ repr_list printable cmd
      ++ lit "' returned non-zero exit status " ++ decimal rc ++ lit ".".

(** [str(e)], as an f-string field [{e}] renders an exception. *)
Definition exn_str (env : Env) (e : exn) : str :=
  match e with
  | CalledProcessError rc cmd _ _ =>
      CalledProcessError_str (isprintable env) (signal_name env) rc cmd
  | OtherException _ message => message
  end.

(* ===================================================================== *)
(** ** Effects: command log, yielded messages, exceptions *)
(* ===================================================================== *)

(** What a run leaves behind: the argument vectors handed to the operating
    system, oldest first, and the messages a generator has yielded. *)
Record trace : Type := mkTrace {
  invoked : list (list str);
  yielded : list str
}.

Definition start : trace := mkTrace [] [].

(** A computation ends with a value or with a raised exception; the trace
    built up to that point is kept in both cases. *)
Definition M (A : Type) : Type := trace -> trace * (exn + A).

Definition ret {A} (a : A) : M A := fun t => (t, inr a).

Definition raise {A} (e : exn) : M A := fun t => (t, inl e).

Definition bind {A B} (m : M A) (k : A -> M B) : M B :=
  fun t =>
    match m t with
    | (t', inl e) => (t', inl e)
    | (t', inr a) => k a t'
    end.

Declare Scope py_scope.
Delimit Scope py_scope with py.
Notation "x <- m ;; k" := (bind m (fun x => k))
  (at level 61, m at next level, right associativity) : py_scope.
Notation "m ;; k" := (bind m (fun _ => k))
  (at level 61, right associativity) : py_scope.
Local Open Scope py_scope.

(** [try: body except <clause> as e: handler].  The clause is a partial
    function: it answers [None] for an exception it does not catch. *)
Definition try_except {A} (body : M A) (clause : exn -> option (M A)) : M A :=
  fun t =>
    match body t with
    | (t', inl e) =>
        match clause e with
        | Some handler => handler t'
        | None => (t', inl e)
        end
    | (t', inr a) => (t', inr a)
    end.

(** [except subprocess.CalledProcessError as e] *)
Definition except_CalledProcessError {A} (h : exn -> M A) (e : exn) : option (M A) :=
  match e with
  | CalledProcessError _ _ _ _ => Some (h e)
  | OtherException _ _ => None
  end.

(** [except Exception as e] *)
Definition except_Exception {A} (h : exn -> M A) (e : exn) : option (M A) :=
  Some (h e).

(** [yield s] *)
Definition yield (s : str) : M unit :=
  fun t => (mkTrace (invoked t) (yielded t ++ [s]), inr tt).

(** An answer of the environment, raised when it is an exception. *)
Definition lift {A} (r : exn + A) : M A := fun t => (t, r).

(** [subprocess.run(cmd, capture_output=True, text=True, check=True)] *)
Definition subprocess_run (env : Env) (cmd : list str) : M CompletedProcess :=
  fun t =>
    let t' := mkTrace (invoked t ++ [cmd]) (yielded t) in
    match launch env cmd with
    | inl e => (t', inl e)
    | inr p =>
        if (returncode p =? 0)%Z then (t', inr p)
        else (t', inl (CalledProcessError (returncode p) cmd (stdout p) (stderr p)))
    end.

(* ===================================================================== *)
(** ** The invoker *)
(* ===================================================================== *)

Definition DEFAULT_OUTPUT_DIR : str := lit "output".
Definition PDF2HTML_SCRIPT : str := lit "/opt/pdf2html/pdf2html".

(** The argument vector [convert_pdf] builds in [cmd]. *)
Definition convert_pdf_cmd (pdf_path output_dir : str)
    (body_only no_toc : bool) (theme : str) : list str :=
  let cmd := [PDF2HTML_SCRIPT; pdf_path] in
  let cmd := if truthy output_dir then cmd ++ [lit "-o"; output_dir] else cmd in
  let cmd := if body_only then cmd ++ [lit "--body-only"] else cmd in
  let cmd := if no_toc then cmd ++ [lit "--no-toc"] else cmd in
  let cmd := if truthy theme then cmd ++ [lit "--theme"; theme] else cmd in
  cmd.

Definition convert_pdf (env : Env) (pdf_path output_dir : str)
    (body_only no_toc : bool) (theme : str) : M str :=
  let cmd := convert_pdf_cmd pdf_path output_dir body_only no_toc theme in
  try_except
    (result <- subprocess_run env cmd ;;
     ret (stdout result))
    (except_CalledProcessError (fun e => ret (lit "Error: " ++ exn_str env e))).

(** The argument vector [convert_folder] passes. *)
Definition convert_folder_cmd (folder_path output_dir : str)
    (body_only no_toc : bool) (theme : str) : list str :=
  [PDF2HTML_SCRIPT; folder_path; lit "-o"; output_dir; lit "--batch"].

Definition convert_folder (env : Env) (folder_path output_dir : str)
    (body_only no_toc : bool) (theme : str) : M str :=
  try_except
    (result <- subprocess_run env
                 (convert_folder_cmd folder_path output_dir body_only no_toc theme) ;;
     ret (stdout result))
    (except_CalledProcessError (fun e => ret (lit "Error: " ++ exn_str env e))).

(* ===================================================================== *)
(** ** The handlers *)
(* ===================================================================== *)

(** The non-ASCII prefixes of the status messages, code point by code
    point as the source file spells them. *)
Definition mark_fail : str := [8218; 249; 229].
Definition mark_wait : str := [8218; 232; 8805].
Definition mark_done : str := [8218; 250; 214].
Definition mark_page : str := [63743; 252; 236; 209].
Definition mark_stat : str := [63743; 252; 236; 228].
Definition mark_dir : str := [63743; 252; 236; 197].
Definition mark_eye : str := [63743; 252; 235; 197].
Definition mark_warn : str := [8218; 246; 8224; 212; 8719; 232].

Definition nl : str := [10].

(** The uploaded file object; the handlers read its [name] only. *)
Record UploadedFile : Type := mkFile { name : str }.

(** The handlers are generator functions: their messages go to the trace
    with [yield], and the value of the computation is what a [return]
    statement carries ([None] when the body runs off its end). *)
Definition handle_convert (env : Env) (pdf_file : option UploadedFile)
    (output_dir : str) (body_only no_toc : bool) (theme : str) : M (option str) :=
  match pdf_file with
  | None => ret (Some (mark_fail ++ lit " No PDF file selected"))
  | Some f =>
      yield (mark_wait ++ lit " Reading PDF...") ;;
      let pdf_path := name f in
      result <- convert_pdf env pdf_path output_dir body_only no_toc theme ;;
      if startswith (lit "Error") result then
        yield (mark_fail ++ lit " " ++ result) ;;
        ret None
      else
        let output_dir_path := rstrip_slash output_dir in
        let output_file :=
          Path_str env
            [output_dir_path;
             if truthy output_dir_path then output_dir_path else lit "output";
             Path_stem env pdf_path ++ lit ".html"] in
        st_size <- lift (stat_size env output_file) ;;
        yield (nl ++ mark_done ++ lit " Conversion complete!" ++ nl ++ nl
                 ++ mark_page ++ lit " Output: `" ++ output_file ++ lit "`" ++ nl
                 ++ mark_stat ++ lit " File size: " ++ format_kb env st_size
                 ++ lit " KB" ++ nl ++ nl
                 ++ lit "Preview will appear below..." ++ nl ++ lit "        ") ;;
        try_except
          (preview_content <- lift (read_text env output_file) ;;
           yield (nl ++ mark_eye ++ lit " " ++ preview_content))
          (except_Exception
             (fun e => yield (mark_warn ++ lit " Could not read preview: "
                                ++ exn_str env e))) ;;
        ret None
  end.

(** The value [handle_convert] binds to [output_file], as [str(path)]. *)
Definition output_file_of (env : Env) (pdf_path output_dir : str) : str :=
  Path_str env
    [rstrip_slash output_dir;
     if truthy (rstrip_slash output_dir) then rstrip_slash output_dir
     else lit "output";
     Path_stem env pdf_path ++ lit ".html"].

Definition handle_batch (env : Env) (folder_path output_dir : str)
    (body_only no_toc : bool) (theme : str) : M (option str) :=
  if negb (truthy folder_path) then
    ret (Some (mark_fail ++ lit " No folder path provided"))
  else
    let folder := strip folder_path in
    if negb (isdir env folder) then
      ret (Some (mark_fail ++ lit " Folder not found: " ++ folder))
    else
      yield (mark_wait ++ lit " Scanning folder...") ;;
      try_except
        (entries <- lift (iterdir env folder) ;;
         let pdf_count :=
           Z.of_nat
             (List.length
                (filter (fun f => str_eqb (lower env (Path_suffix env f)) (lit ".pdf"))
                   entries)) in
         yield (mark_stat ++ lit " Found " ++ decimal pdf_count ++ lit " PDF files") ;;
         yield (mark_wait ++ lit " Starting batch conversion...") ;;
         result <- convert_folder env folder output_dir body_only no_toc theme ;;
         if startswith (lit "Error") result then
           yield (mark_fail ++ lit " " ++ result)
         else
           let output_dir_path := rstrip_slash output_dir in
           yield (nl ++ mark_done ++ lit " Batch conversion complete!" ++ nl ++ nl
                    ++ mark_dir ++ lit " Folder: " ++ folder ++ nl
                    ++ mark_stat ++ lit " Processed: " ++ decimal pdf_count
                    ++ lit " files" ++ nl
                    ++ mark_dir ++ lit " Output: " ++ output_dir
                    ++ lit "/index.html" ++ nl ++ nl
                    ++ lit "You can now deploy this directory to Vercel." ++ nl
                    ++ lit "            "))
        (except_Exception
           (fun e => yield (mark_fail ++ lit " Batch error: " ++ exn_str env e))) ;;
      ret None.

(** The list [generate_command] collects in [parts]. *)
Definition generate_command_parts (pdf_file : option UploadedFile)
    (output_dir : str) (body_only no_toc : bool) (theme : str) : list str :=
  let parts := [lit "/opt/pdf2html/pdf2html"] in
  let parts := match pdf_file with
               | Some f => parts ++ [name f]
               | None => parts
               end in
  let parts := if truthy output_dir && negb (str_eqb output_dir (lit "output/"))
               then parts ++ [lit "-o"; output_dir] else parts in
  let parts := if body_only then parts ++ [lit "--body-only"] else parts in
  let parts := if no_toc then parts ++ [lit "--no-toc"] else parts in
  let parts := if truthy theme && negb (str_eqb theme (lit "modern"))
               then parts ++ [lit "--theme"; theme] else parts in
  parts.

Definition generate_command (pdf_file : option UploadedFile)
    (output_dir : str) (body_only no_toc : bool) (theme : str) : str :=
  lit "```bash" ++ nl
    ++ join (lit " ") (generate_command_parts pdf_file output_dir body_only no_toc theme)
    ++ nl ++ lit "```".

(** The trace after one more command has been handed to the system. *)
Definition logged (t : trace) (cmd : list str) : trace :=
  mkTrace (invoked t ++ [cmd]) (yielded t).

(** The trace after one more message has been yielded. *)
Definition said (t : trace) (s : str) : trace :=
  mkTrace (invoked t) (yielded t ++ [s]).

(* ===================================================================== *)
(** ** A concrete environment *)
(* ===================================================================== *)

(** One request and a world to run it in: the upload is [doc.pdf], the
    output directory [output/], and the child behaves as [child] says. *)
Module Demo.

Definition doc : UploadedFile := mkFile (lit "doc.pdf").

Definition FileNotFoundError (message : str) : exn :=
  OtherException (lit "FileNotFoundError") message.

Definition PermissionError (message : str) : exn :=
  OtherException (lit "PermissionError") message.

(** The library answers below are the ones CPython gives on the values
    this request meets (plain relative names, lower-case [.pdf] entries,
    ASCII text); they are not meant for other inputs. *)

(** ASCII only: every code point from space to tilde is printable. *)
Definition ascii_printable (c : char) : bool := (32 <=? c) && (c <? 127).

Definition env_with (child : list str -> exn + CompletedProcess)
    (dirs : list str) (stat : str -> exn + Z) (read : str -> exn + str) : Env :=
  {| launch := child;
     isdir := fun p => existsb (str_eqb p) dirs;
     iterdir := fun _ => inr [lit "a.pdf"; lit "b.pdf"];
     stat_size := stat;
     read_text := read;
     Path_str := fun segs => join (lit "/") segs;
     Path_stem := fun _ => lit "doc";
     Path_suffix := fun n => lit ".pdf";
     lower := fun s => s;
     format_kb := fun _ => lit "2.0";
     isprintable := ascii_printable;
     signal_name := fun _ => None |}.

Definition exits (rc : Z) (out err : str) : list str -> exn + CompletedProcess :=
  fun _ => inr (mkCompleted rc out err).

Definition missing_executable : list str -> exn + CompletedProcess :=
  fun _ => inl (FileNotFoundError
                  (lit "[Errno 2] No such file or directory: '/opt/pdf2html/pdf2html'")).

Definition no_file (p : str) : exn + Z :=
  inl (FileNotFoundError
         (lit "[Errno 2] No such file or directory: '" ++ p ++ lit "'")).

Definition unreadable (p : str) : exn + str :=
  inl (PermissionError (lit "[Errno 13] Permission denied: '" ++ p ++ lit "'")).

(** The request of the running example. *)
Definition pdf_path : str := lit "doc.pdf".
Definition output_dir : str := lit "output/".
Definition modern : str := lit "modern".
Definition minimal : str := lit "minimal".

(** The child exits with status 0 and prints [ok]; it leaves no file at
    the path the preview looks for. *)
Definition env_no_output : Env :=
  env_with (exits 0 (lit "ok") []) [] no_file unreadable.

(** The child exits with status 0; the output file is there, 2048 bytes
    long, and cannot be opened. *)
Definition env_unreadable : Env :=
  env_with (exits 0 (lit "ok") []) [] (fun _ => inr 2048%Z) unreadable.

(** The child exits with status 1, with text on both streams. *)
Definition env_exit1 : Env :=
  env_with (exits 1 (lit "partial") (lit "boom")) [] no_file unreadable.

(** The executable is not installed. *)
Definition env_no_executable : Env :=
  env_with missing_executable [lit "pdfs"] no_file unreadable.

(** The child exits with status 0 and its report starts with [Error]. *)
Definition env_error_report : Env :=
  env_with (exits 0 (lit "Error count: 0") []) [] no_file unreadable.

End Demo.

(* ===================================================================== *)
(** ** The rest of the program *)
(* ===================================================================== *)

(** How [convert_pdf] and [convert_folder] end for the command they were
    given, read off the answer of the system: the body of their [try]
    statement and its [except subprocess.CalledProcessError] clause. *)
Definition convert_outcome (env : Env) (cmd : list str) : exn + str :=
  match launch env cmd with
  | inl (CalledProcessError rc c out err) =>
      inr (lit "Error: " ++ exn_str env (CalledProcessError rc c out err))
  | inl (OtherException class_name message) =>
      inl (OtherException class_name message)
  | inr p =>
      if (returncode p =? 0)%Z then inr (stdout p)
      else inr (lit "Error: "
                  ++ exn_str env
                       (CalledProcessError (returncode p) cmd (stdout p) (stderr p)))
  end.

(** [verify_pdf2html], over the answer of [os.path.exists]. *)
Definition verify_pdf2html (path_exists : str -> bool) : str :=
  if path_exists PDF2HTML_SCRIPT then
    mark_done ++ lit " pdf2html found at: " ++ PDF2HTML_SCRIPT
  else
    mark_fail ++ lit " pdf2html not found. Install with:" ++ nl ++ nl
      ++ lit "```bash" ++ nl
      ++ lit "sudo mkdir -p /opt/pdf2html" ++ nl
      ++ lit "sudo cp pdf2html /opt/pdf2html/" ++ nl
      ++ lit "sudo chmod +x /opt/pdf2html/pdf2html" ++ nl ++ nl
      ++ lit "```" ++ nl ++ nl
      ++ lit "Check system-wide PATH:" ++ nl
      ++ lit "```bash" ++ nl
      ++ lit "export PATH=" ++ [34] ++ lit "/opt/pdf2html:$PATH" ++ [34] ++ nl
      ++ lit "```" ++ nl.

(** The number [handle_batch] binds to [pdf_count] for the entries of the
    folder. *)
Definition pdf_count_of (env : Env) (entries : list str) : Z :=
  Z.of_nat
    (List.length
       (filter (fun f => str_eqb (lower env (Path_suffix env f)) (lit ".pdf"))
          entries)).

(** More worlds for the running example. *)
Module Cases.

(** [str.lower] on ASCII text. *)
Definition ascii_lower (s : str) : str :=
  map (fun c => if (65 <=? c) && (c <=? 90) then c + 32 else c) s.

(** The text from the last dot of [s] on, if [s] has a dot. *)
Fixpoint from_last_dot (s : str) : option str :=
  match s with
  | [] => None
  | c :: s' =>
      match from_last_dot s' with
      | Some tail => Some tail
      | None => if c =? 46 then Some s else None
      end
  end.

(** [PurePath.suffix] of a plain file name: the text from the last dot on,
    when that dot is neither the first nor the last character. *)
Definition name_suffix (n : str) : str :=
  match n with
  | [] => []
  | _ :: rest =>
      match from_last_dot rest with
      | Some tail => if (1 <? List.length tail)%nat then tail else []
      | None => []
      end
  end.

(** A world for the batch handler: [pdfs] is the one directory, [listing]
    is what iterating over it gives, and [child] is the executable. *)
Definition env_batch (child : list str -> exn + CompletedProcess)
    (listing : exn + list str) : Env :=
  {| launch := child;
     isdir := fun p => str_eqb p (lit "pdfs");
     iterdir := fun _ => listing;
     stat_size := Demo.no_file;
     read_text := Demo.unreadable;
     Path_str := fun segs => join (lit "/") segs;
     Path_stem := fun _ => lit "doc";
     Path_suffix := name_suffix;
     lower := ascii_lower;
     format_kb := fun _ => lit "2.0";
     isprintable := Demo.ascii_printable;
     signal_name := fun _ => None |}.

Definition four_entries : list str :=
  [lit "a.pdf"; lit "B.PDF"; lit "notes.txt"; lit "README"].

(** The folder lists four entries, two of them PDF files; the child exits
    with status 0. *)
Definition env_batch_ok : Env :=
  env_batch (Demo.exits 0 (lit "2 files converted") []) (inr four_entries).

(** The same folder; the child exits with status 2. *)
Definition env_batch_exit2 : Env :=
  env_batch (Demo.exits 2 [] (lit "bad input")) (inr four_entries).

(** The folder cannot be listed. *)
Definition env_batch_unlistable : Env :=
  env_batch (Demo.exits 0 (lit "2 files converted") [])
    (inl (Demo.PermissionError (lit "[Errno 13] Permission denied: 'pdfs'"))).


End Cases.

(* ===================================================================== *)
(** ** Basic facts *)
(* ===================================================================== *)


Lemma truthy_false (s : str) : truthy s = false -> s = [].
Proof. destruct s; [reflexivity | discriminate]. Qed.

Section Run.
Variable env : Env.
Variable cmd : list str.
Variable t : trace.

Lemma subprocess_run_zero (p : CompletedProcess) :
  launch env cmd = inr p -> returncode p = 0%Z ->
  subprocess_run env cmd t = (logged t cmd, inr p).
Proof.
  intros Hl Hrc. unfold subprocess_run. rewrite Hl, Hrc. reflexivity.
Qed.

Lemma subprocess_run_nonzero (p : CompletedProcess) :
  launch env cmd = inr p -> returncode p <> 0%Z ->
  subprocess_run env cmd t
  = (logged t cmd,
     inl (CalledProcessError (returncode p) cmd (stdout p) (stderr p))).
Proof.
  intros Hl Hrc. unfold subprocess_run. rewrite Hl.
  destruct (Z.eqb_spec (returncode p) 0) as [E|_]; [contradiction | reflexivity].
Qed.

Lemma subprocess_run_raises (e : exn) :
  launch env cmd = inl e ->
  subprocess_run env cmd t = (logged t cmd, inl e).
Proof. intros Hl. unfold subprocess_run. rewrite Hl. reflexivity. Qed.
End Run.

(** The three ways [convert_pdf] can end. *)
Section ConvertPdf.
Variable env : Env.
Variables pdf_path output_dir theme : str.
Variables body_only no_toc : bool.
Variable t : trace.

Lemma convert_pdf_zero (p : CompletedProcess) :
  launch env (convert_pdf_cmd pdf_path output_dir body_only no_toc theme) = inr p -> returncode p = 0%Z ->
  convert_pdf env pdf_path output_dir body_only no_toc theme t
  = (logged t (convert_pdf_cmd pdf_path output_dir body_only no_toc theme), inr (stdout p)).
Proof.
  intros Hl Hrc. unfold convert_pdf, try_except, bind.
  rewrite (subprocess_run_zero env _ t p Hl Hrc). reflexivity.
Qed.

Lemma convert_pdf_nonzero (p : CompletedProcess) :
  launch env (convert_pdf_cmd pdf_path output_dir body_only no_toc theme) = inr p -> returncode p <> 0%Z ->
  convert_pdf env pdf_path output_dir body_only no_toc theme t
  = (logged t (convert_pdf_cmd pdf_path output_dir body_only no_toc theme),
     inr (lit "Error: "
            ++ CalledProcessError_str (isprintable env) (signal_name env)
                 (returncode p)
                 (convert_pdf_cmd pdf_path output_dir body_only no_toc theme))).
Proof.
  intros Hl Hrc. unfold convert_pdf, try_except, bind.
  rewrite (subprocess_run_nonzero env _ t p Hl Hrc). reflexivity.
Qed.

Lemma convert_pdf_raises (class_name message : str) :
  launch env (convert_pdf_cmd pdf_path output_dir body_only no_toc theme) = inl (OtherException class_name message) ->
  convert_pdf env pdf_path output_dir body_only no_toc theme t
  = (logged t (convert_pdf_cmd pdf_path output_dir body_only no_toc theme), inl (OtherException class_name message)).
Proof.
  intros Hl. unfold convert_pdf, try_except, bind.
  rewrite (subprocess_run_raises env _ t _ Hl). reflexivity.
Qed.
End ConvertPdf.

(** [convert_folder] ends the same three ways. *)
Section ConvertFolder.
Variable env : Env.
Variables folder_path output_dir theme : str.
Variables body_only no_toc : bool.
Variable t : trace.

Lemma convert_folder_zero (p : CompletedProcess) :
  launch env (convert_folder_cmd folder_path output_dir body_only no_toc theme) = inr p -> returncode p = 0%Z ->
  convert_folder env folder_path output_dir body_only no_toc theme t
  = (logged t (convert_folder_cmd folder_path output_dir body_only no_toc theme), inr (stdout p)).
Proof.
  intros Hl Hrc. unfold convert_folder, try_except, bind.
  rewrite (subprocess_run_zero env _ t p Hl Hrc). reflexivity.
Qed.

Lemma convert_folder_nonzero (p : CompletedProcess) :
  launch env (convert_folder_cmd folder_path output_dir body_only no_toc theme) = inr p -> returncode p <> 0%Z ->
  convert_folder env folder_path output_dir body_only no_toc theme t
  = (logged t (convert_folder_cmd folder_path output_dir body_only no_toc theme),
     inr (lit "Error: "
            ++ CalledProcessError_str (isprintable env) (signal_name env)
                 (returncode p)
                 (convert_folder_cmd folder_path output_dir body_only no_toc theme))).
Proof.
  intros Hl Hrc. unfold convert_folder, try_except, bind.
  rewrite (subprocess_run_nonzero env _ t p Hl Hrc). reflexivity.
Qed.
End ConvertFolder.

(** Whatever the child does, [convert_pdf] and [convert_folder] hand the
    system exactly one command: the one they built. *)
Lemma convert_pdf_invokes (env : Env) (pdf_path output_dir : str)
    (body_only no_toc : bool) (theme : str) (t : trace) :
  fst (convert_pdf env pdf_path output_dir body_only no_toc theme t)
  = logged t (convert_pdf_cmd pdf_path output_dir body_only no_toc theme).
Proof.
  unfold convert_pdf, try_except, bind, subprocess_run.
  destruct (launch env _) as [e|p].
  - destruct e; reflexivity.
  - destruct (returncode p =? 0)%Z; reflexivity.
Qed.

Lemma convert_folder_invokes (env : Env) (folder_path output_dir : str)
    (body_only no_toc : bool) (theme : str) (t : trace) :
  fst (convert_folder env folder_path output_dir body_only no_toc theme t)
  = logged t (convert_folder_cmd folder_path output_dir body_only no_toc theme).
Proof.
  unfold convert_folder, try_except, bind, subprocess_run.
  destruct (launch env _) as [e|p].
  - destruct e; reflexivity.
  - destruct (returncode p =? 0)%Z; reflexivity.
Qed.

Lemma str_eqb_refl (s : str) : str_eqb s s = true.
Proof. unfold str_eqb. destruct (str_eq_dec s s); [reflexivity | contradiction]. Qed.

Lemma str_eqb_neq (a b : str) : a <> b -> str_eqb a b = false.
Proof. intros H. unfold str_eqb. destruct (str_eq_dec a b); [contradiction | reflexivity]. Qed.

Lemma truthy_nonempty (s : str) : s <> [] -> truthy s = true.
Proof. destruct s; [contradiction | reflexivity]. Qed.

(* ===================================================================== *)
(** ** The command line *)
(* ===================================================================== *)

(** C1.  The claim expects a batch request to forward [--body-only],
    [--no-toc] and [--theme] next to [--batch].  [convert_folder] takes the
    three options and leaves them out: for the folder [pdfs], output
    directory [output/], both flags set and theme [minimal], the command
    handed to the system is the executable, the folder, [-o output/] and
    [--batch], whatever the child then does. *)
Theorem convert_folder_drops_flags (env : Env) :
  invoked (fst (convert_folder env (lit "pdfs") (lit "output/") true true
                  (lit "minimal") start))
  = [[PDF2HTML_SCRIPT; lit "pdfs"; lit "-o"; lit "output/"; lit "--batch"]].
Proof. rewrite convert_folder_invokes. reflexivity. Qed.

(** C2, as the claim states it, fails: for the request [doc.pdf],
    [output/], body-only set, no-toc unset, theme [modern], the arguments
    after the executable name are not the four the claim lists. *)
Lemma example_args_not_four :
  invoked (fst (convert_pdf Demo.env_no_output (lit "doc.pdf") (lit "output/")
                  true false (lit "modern") start))
  <> [PDF2HTML_SCRIPT
        :: [lit "doc.pdf"; lit "-o"; lit "output/"; lit "--body-only"]].
Proof. vm_compute. discriminate. Qed.

(** C2, amended.  For that request the arguments after the executable name
    are [doc.pdf], [-o], [output/], [--body-only], [--theme], [modern], in
    every environment. *)
Theorem example_args_with_theme (env : Env) :
  invoked (fst (convert_pdf env (lit "doc.pdf") (lit "output/")
                  true false (lit "modern") start))
  = [PDF2HTML_SCRIPT
       :: [lit "doc.pdf"; lit "-o"; lit "output/"; lit "--body-only";
           lit "--theme"; lit "modern"]].
Proof. rewrite convert_pdf_invokes. reflexivity. Qed.

(** C3.  With the theme [modern] the preview of [generate_command] is the
    one built with no theme at all, while the command [convert_pdf] runs is
    the theme-less command followed by [--theme modern].  With any other
    non-empty theme both the preview's parts and the command run are their
    theme-less versions followed by [--theme <name>]. *)
Theorem theme_flag_preview_vs_invocation
    (env : Env) (pdf_file : option UploadedFile) (pdf_path output_dir : str)
    (body_only no_toc : bool) (t : trace) :
  (generate_command_parts pdf_file output_dir body_only no_toc (lit "modern")
   = generate_command_parts pdf_file output_dir body_only no_toc []
   /\ generate_command pdf_file output_dir body_only no_toc (lit "modern")
      = generate_command pdf_file output_dir body_only no_toc []
   /\ invoked (fst (convert_pdf env pdf_path output_dir body_only no_toc
                      (lit "modern") t))
      = invoked t
          ++ [convert_pdf_cmd pdf_path output_dir body_only no_toc []
                ++ [lit "--theme"; lit "modern"]])
  /\ (forall theme : str,
        theme <> [] -> theme <> lit "modern" ->
        generate_command_parts pdf_file output_dir body_only no_toc theme
        = generate_command_parts pdf_file output_dir body_only no_toc []
            ++ [lit "--theme"; theme]
        /\ generate_command pdf_file output_dir body_only no_toc theme
           = lit "```bash" ++ nl
               ++ join (lit " ")
                    (generate_command_parts pdf_file output_dir body_only no_toc []
                       ++ [lit "--theme"; theme])
               ++ nl ++ lit "```"
        /\ invoked (fst (convert_pdf env pdf_path output_dir body_only no_toc
                           theme t))
           = invoked t
               ++ [convert_pdf_cmd pdf_path output_dir body_only no_toc []
                     ++ [lit "--theme"; theme]]).
Proof.
  assert (Hcmd : forall theme, theme <> [] ->
            convert_pdf_cmd pdf_path output_dir body_only no_toc theme
            = convert_pdf_cmd pdf_path output_dir body_only no_toc []
                ++ [lit "--theme"; theme]).
  { intros theme Hne. unfold convert_pdf_cmd.
    rewrite (truthy_nonempty theme Hne). reflexivity. }
  assert (Hmodern :
            generate_command_parts pdf_file output_dir body_only no_toc (lit "modern")
            = generate_command_parts pdf_file output_dir body_only no_toc []).
  { unfold generate_command_parts. rewrite str_eqb_refl.
    rewrite andb_false_r. reflexivity. }
  split.
  - split; [exact Hmodern |].
    split.
    + unfold generate_command. rewrite Hmodern. reflexivity.
    + rewrite convert_pdf_invokes. simpl invoked.
      rewrite Hcmd by discriminate. reflexivity.
  - intros theme Hne Hmod.
    assert (Hparts :
              generate_command_parts pdf_file output_dir body_only no_toc theme
              = generate_command_parts pdf_file output_dir body_only no_toc []
                  ++ [lit "--theme"; theme]).
    { unfold generate_command_parts.
      rewrite (truthy_nonempty theme Hne), (str_eqb_neq _ _ Hmod). reflexivity. }
    split; [exact Hparts |].
    split.
    + unfold generate_command. rewrite Hparts. reflexivity.
    + rewrite convert_pdf_invokes. simpl invoked.
      rewrite (Hcmd theme Hne). reflexivity.
Qed.

(** The theme [minimal] on the running example. *)
Lemma theme_flag_minimal :
  generate_command_parts (Some Demo.doc) Demo.output_dir true false Demo.minimal
  = generate_command_parts (Some Demo.doc) Demo.output_dir true false []
      ++ [lit "--theme"; Demo.minimal]
  /\ generate_command (Some Demo.doc) Demo.output_dir true false Demo.minimal
     = lit "```bash" ++ nl
         ++ join (lit " ")
              (generate_command_parts (Some Demo.doc) Demo.output_dir true false []
                 ++ [lit "--theme"; Demo.minimal])
         ++ nl ++ lit "```"
  /\ invoked (fst (convert_pdf Demo.env_no_output Demo.pdf_path Demo.output_dir
                     true false Demo.minimal start))
     = invoked start
         ++ [convert_pdf_cmd Demo.pdf_path Demo.output_dir true false []
               ++ [lit "--theme"; Demo.minimal]].
Proof.
  apply (proj2 (theme_flag_preview_vs_invocation Demo.env_no_output
                  (Some Demo.doc) Demo.pdf_path Demo.output_dir true false start)).
  - vm_compute. discriminate.
  - vm_compute. discriminate.
Defined.

(** C8, as the claim states it, fails: with both flags unset and the
    output directory named [--no-toc], the argument list of [convert_pdf]
    contains the token [--no-toc]. *)
Lemma unset_flags_token_present :
  In (lit "--no-toc")
     (convert_pdf_cmd (lit "doc.pdf") (lit "--no-toc") false false (lit "modern")).
Proof. vm_compute. tauto. Qed.

(** C8, amended.  The body-only flag accounts for exactly one
    [--body-only] token when set and for none when unset, and so does the
    no-toc flag for [--no-toc]; with both unset the argument list is the
    executable and the source path, then [-o] and the output directory if
    one is given, then [--theme] and the theme if one is given, so either
    token occurs in it only as one of those three values. *)
Theorem flag_tokens_counted (pdf_path output_dir theme : str)
    (body_only no_toc : bool) :
  count_occ str_eq_dec
    (convert_pdf_cmd pdf_path output_dir body_only no_toc theme) (lit "--body-only")
  = (count_occ str_eq_dec
       (convert_pdf_cmd pdf_path output_dir false false theme) (lit "--body-only")
     + (if body_only then 1 else 0))%nat
  /\ count_occ str_eq_dec
       (convert_pdf_cmd pdf_path output_dir body_only no_toc theme) (lit "--no-toc")
     = (count_occ str_eq_dec
          (convert_pdf_cmd pdf_path output_dir false false theme) (lit "--no-toc")
        + (if no_toc then 1 else 0))%nat
  /\ convert_pdf_cmd pdf_path output_dir false false theme
     = [PDF2HTML_SCRIPT; pdf_path]
         ++ (if truthy output_dir then [lit "-o"; output_dir] else [])
         ++ (if truthy theme then [lit "--theme"; theme] else []).
Proof.
  assert (Hbb : count_occ str_eq_dec [lit "--body-only"] (lit "--body-only")
                 = 1%nat) by (vm_compute; reflexivity).
  assert (Hnb : count_occ str_eq_dec [lit "--no-toc"] (lit "--body-only")
                 = 0%nat) by (vm_compute; reflexivity).
  assert (Hnn : count_occ str_eq_dec [lit "--no-toc"] (lit "--no-toc")
                 = 1%nat) by (vm_compute; reflexivity).
  assert (Hbn : count_occ str_eq_dec [lit "--body-only"] (lit "--no-toc")
                 = 0%nat) by (vm_compute; reflexivity).
  unfold convert_pdf_cmd.
  repeat split.
  - destruct (truthy output_dir), (truthy theme), body_only, no_toc;
      repeat rewrite count_occ_app;
      rewrite ?Hbb, ?Hnb; lia.
  - destruct (truthy output_dir), (truthy theme), body_only, no_toc;
      repeat rewrite count_occ_app;
      rewrite ?Hnn, ?Hbn; lia.
  - destruct (truthy output_dir), (truthy theme); reflexivity.
Qed.

(* ===================================================================== *)
(** ** What the invoker returns *)
(* ===================================================================== *)

(** C7.  When the child started by [convert_pdf] exits with status zero,
    the function returns the captured standard output unchanged, after
    handing the system that one command. *)
Theorem zero_exit_returns_stdout (env : Env) (pdf_path output_dir : str)
    (body_only no_toc : bool) (theme : str) (p : CompletedProcess) (t : trace) :
  launch env (convert_pdf_cmd pdf_path output_dir body_only no_toc theme) = inr p ->
  returncode p = 0%Z ->
  convert_pdf env pdf_path output_dir body_only no_toc theme t
  = (logged t (convert_pdf_cmd pdf_path output_dir body_only no_toc theme),
     inr (stdout p)).
Proof. intros Hl Hrc. apply convert_pdf_zero; assumption. Qed.

(** The running example: the child prints [ok] and exits with status 0. *)
Lemma zero_exit_returns_ok :
  convert_pdf Demo.env_no_output Demo.pdf_path Demo.output_dir true false
    Demo.modern start
  = (logged start
       (convert_pdf_cmd Demo.pdf_path Demo.output_dir true false Demo.modern),
     inr (stdout (mkCompleted 0 (lit "ok") []))).
Proof.
  apply (zero_exit_returns_stdout Demo.env_no_output Demo.pdf_path
           Demo.output_dir true false Demo.modern (mkCompleted 0 (lit "ok") [])).
  - reflexivity.
  - reflexivity.
Defined.

(** C4, as the claim states it, fails: the child exits with status 1
    after writing [partial] to its standard output and [boom] to its
    standard error; the result of [convert_pdf] names the command and the
    exit status and carries neither captured text. *)
Lemma error_text_lacks_diagnostics :
  snd (convert_pdf Demo.env_exit1 (lit "doc.pdf") (lit "output/") true false
         (lit "modern") start)
  = inr (lit "Error: Command '['/opt/pdf2html/pdf2html', 'doc.pdf', '-o', 'output/', '--body-only', '--theme', 'modern']' returned non-zero exit status 1.")
  /\ contains (lit "boom")
       (lit "Error: Command '['/opt/pdf2html/pdf2html', 'doc.pdf', '-o', 'output/', '--body-only', '--theme', 'modern']' returned non-zero exit status 1.")
     = false
  /\ contains (lit "partial")
       (lit "Error: Command '['/opt/pdf2html/pdf2html', 'doc.pdf', '-o', 'output/', '--body-only', '--theme', 'modern']' returned non-zero exit status 1.")
     = false.
Proof. vm_compute. repeat split. Qed.

(** C4, amended.  When the child exits with a non-zero status, both
    [convert_pdf] and [convert_folder] return [Error: ] followed by the
    text of the [CalledProcessError], which is built from the command line
    and the exit status alone, not from the captured output; the result
    begins with the error marker; and the system was handed the command
    exactly once.  The exit status takes no part in the control flow: it
    only appears in that text. *)
Theorem nonzero_exit_error_text (env : Env) (source output_dir : str)
    (body_only no_toc : bool) (theme : str) (p : CompletedProcess) (t : trace) :
  (launch env (convert_pdf_cmd source output_dir body_only no_toc theme) = inr p ->
   returncode p <> 0%Z ->
   exists r : str,
     convert_pdf env source output_dir body_only no_toc theme t
     = (logged t (convert_pdf_cmd source output_dir body_only no_toc theme), inr r)
     /\ r = lit "Error: "
              ++ CalledProcessError_str (isprintable env) (signal_name env)
                   (returncode p)
                   (convert_pdf_cmd source output_dir body_only no_toc theme)
     /\ startswith (lit "Error") r = true)
  /\ (launch env (convert_folder_cmd source output_dir body_only no_toc theme) = inr p ->
      returncode p <> 0%Z ->
      exists r : str,
        convert_folder env source output_dir body_only no_toc theme t
        = (logged t (convert_folder_cmd source output_dir body_only no_toc theme),
           inr r)
        /\ r = lit "Error: "
                 ++ CalledProcessError_str (isprintable env) (signal_name env)
                      (returncode p)
                      (convert_folder_cmd source output_dir body_only no_toc theme)
        /\ startswith (lit "Error") r = true).
Proof.
  split; intros Hl Hrc; eexists; (split; [| split; [reflexivity |]]).
  - apply convert_pdf_nonzero; assumption.
  - reflexivity.
  - apply convert_folder_nonzero; assumption.
  - reflexivity.
Qed.

(** The running example with a child that exits with status 1: the single
    file and the batch invocation. *)
Lemma nonzero_exit_status_one :
  (exists r : str,
     convert_pdf Demo.env_exit1 Demo.pdf_path Demo.output_dir true false
       Demo.modern start
     = (logged start
          (convert_pdf_cmd Demo.pdf_path Demo.output_dir true false Demo.modern),
        inr r)
     /\ r = lit "Error: "
              ++ CalledProcessError_str (isprintable Demo.env_exit1)
                   (signal_name Demo.env_exit1)
                   (returncode (mkCompleted 1 (lit "partial") (lit "boom")))
                   (convert_pdf_cmd Demo.pdf_path Demo.output_dir true false
                      Demo.modern)
     /\ startswith (lit "Error") r = true)
  /\ (exists r : str,
        convert_folder Demo.env_exit1 Demo.pdf_path Demo.output_dir true false
          Demo.modern start
        = (logged start
             (convert_folder_cmd Demo.pdf_path Demo.output_dir true false
                Demo.modern),
           inr r)
        /\ r = lit "Error: "
                 ++ CalledProcessError_str (isprintable Demo.env_exit1)
                      (signal_name Demo.env_exit1)
                      (returncode (mkCompleted 1 (lit "partial") (lit "boom")))
                      (convert_folder_cmd Demo.pdf_path Demo.output_dir true false
                         Demo.modern)
        /\ startswith (lit "Error") r = true).
Proof.
  destruct (nonzero_exit_error_text Demo.env_exit1 Demo.pdf_path Demo.output_dir
              true false Demo.modern (mkCompleted 1 (lit "partial") (lit "boom"))
              start) as [Hpdf Hfolder].
  split.
  - apply Hpdf; [reflexivity | simpl; lia].
  - apply Hfolder; [reflexivity | simpl; lia].
Defined.

(* ===================================================================== *)
(** ** The single-file handler *)
(* ===================================================================== *)

Section HandleConvert.
Variable env : Env.
Variable f : UploadedFile.
Variables output_dir theme : str.
Variables body_only no_toc : bool.
Variable t : trace.

(** An exception raised while the child is started passes through the
    handler: nothing catches it. *)
Lemma handle_convert_launch_raises (class_name message : str) :
  launch env (convert_pdf_cmd (name f) output_dir body_only no_toc theme)
  = inl (OtherException class_name message) ->
  handle_convert env (Some f) output_dir body_only no_toc theme t
  = (logged (said t (mark_wait ++ lit " Reading PDF..."))
       (convert_pdf_cmd (name f) output_dir body_only no_toc theme),
     inl (OtherException class_name message)).
Proof.
  intros Hl. unfold handle_convert, bind, yield. cbv beta iota.
  rewrite (convert_pdf_raises env _ _ _ _ _ _ _ _ Hl). reflexivity.
Qed.

(** After a zero exit whose report does not start with [Error], an
    exception of [stat] on the derived path passes through the handler
    before the success message is yielded. *)
Lemma handle_convert_stat_raises (p : CompletedProcess) (e : exn) :
  launch env (convert_pdf_cmd (name f) output_dir body_only no_toc theme) = inr p ->
  returncode p = 0%Z ->
  startswith (lit "Error") (stdout p) = false ->
  stat_size env (output_file_of env (name f) output_dir) = inl e ->
  handle_convert env (Some f) output_dir body_only no_toc theme t
  = (logged (said t (mark_wait ++ lit " Reading PDF..."))
       (convert_pdf_cmd (name f) output_dir body_only no_toc theme),
     inl e).
Proof.
  intros Hl Hrc Hsw Hstat. unfold handle_convert, bind, yield. cbv beta iota.
  rewrite (convert_pdf_zero env _ _ _ _ _ _ p Hl Hrc). rewrite Hsw.
  unfold lift. fold (output_file_of env (name f) output_dir). rewrite Hstat. reflexivity.
Qed.

End HandleConvert.

(** The running example when the output file exists and cannot be opened:
    first message, success message, warning, and a normal end. *)
Example unreadable_output_file_warns :
  handle_convert Demo.env_unreadable (Some Demo.doc) Demo.output_dir
    true false Demo.modern start
  = (mkTrace
       [convert_pdf_cmd Demo.pdf_path Demo.output_dir true false Demo.modern]
       [mark_wait ++ lit " Reading PDF...";
        nl ++ mark_done ++ lit " Conversion complete!" ++ nl ++ nl
          ++ mark_page ++ lit " Output: `output/output/doc.html`" ++ nl
          ++ mark_stat ++ lit " File size: 2.0 KB" ++ nl ++ nl
          ++ lit "Preview will appear below..." ++ nl ++ lit "        ";
        mark_warn ++ lit " Could not read preview: [Errno 13] Permission denied: 'output/output/doc.html'"],
     inr None).
Proof. vm_compute. reflexivity. Qed.

(** C5.  The claim expects every error to come back as a string.  With
    the executable missing, starting the child raises [FileNotFoundError];
    [convert_pdf] catches [CalledProcessError] only and [handle_convert]
    catches nothing around the call, so the exception leaves the handler
    after its first message.  The batch handler, whose body sits in
    [except Exception], turns the same failure into a message and ends
    normally. *)
Theorem missing_executable_propagates :
  handle_convert Demo.env_no_executable (Some Demo.doc) Demo.output_dir
    true false Demo.modern start
  = (mkTrace
       [convert_pdf_cmd Demo.pdf_path Demo.output_dir true false Demo.modern]
       [mark_wait ++ lit " Reading PDF..."],
     inl (Demo.FileNotFoundError
            (lit "[Errno 2] No such file or directory: '/opt/pdf2html/pdf2html'")))
  /\ handle_batch Demo.env_no_executable (lit "pdfs") Demo.output_dir
       true false Demo.modern start
     = (mkTrace
          [convert_folder_cmd (lit "pdfs") Demo.output_dir true false Demo.modern]
          [mark_wait ++ lit " Scanning folder...";
           mark_stat ++ lit " Found 2 PDF files";
           mark_wait ++ lit " Starting batch conversion...";
           mark_fail ++ lit " Batch error: [Errno 2] No such file or directory: '/opt/pdf2html/pdf2html'"],
        inr None).
Proof. split; vm_compute; reflexivity. Qed.

(** C6.  The claim expects a warning and the success message when the
    output file is missing.  The child exits with status 0 and prints
    [ok]; no file exists at the derived path [output/output/doc.html].
    The size of the file is asked for while the success message is being
    formatted, outside the [try] that guards the preview, so the handler
    ends with [FileNotFoundError] having yielded its first message only:
    neither the success message nor a warning. *)
Theorem missing_output_file_raises :
  handle_convert Demo.env_no_output (Some Demo.doc) Demo.output_dir
    true false Demo.modern start
  = (mkTrace
       [convert_pdf_cmd Demo.pdf_path Demo.output_dir true false Demo.modern]
       [mark_wait ++ lit " Reading PDF..."],
     inl (Demo.FileNotFoundError
            (lit "[Errno 2] No such file or directory: 'output/output/doc.html'"))).
Proof. vm_compute. reflexivity. Qed.

(** C10.  When the child exits with status zero and its standard output
    starts with [Error], [handle_convert] reports the failure message made
    of that output and ends: no success message is yielded and the output
    file is not looked at. *)
Theorem error_prefixed_report_is_failure (env : Env) (f : UploadedFile)
    (output_dir : str) (body_only no_toc : bool) (theme : str)
    (p : CompletedProcess) (t : trace) :
  launch env (convert_pdf_cmd (name f) output_dir body_only no_toc theme) = inr p ->
  returncode p = 0%Z ->
  startswith (lit "Error") (stdout p) = true ->
  handle_convert env (Some f) output_dir body_only no_toc theme t
  = (mkTrace
       (invoked t ++ [convert_pdf_cmd (name f) output_dir body_only no_toc theme])
       (yielded t ++ [mark_wait ++ lit " Reading PDF..."]
                  ++ [mark_fail ++ lit " " ++ stdout p]),
     inr None).
Proof.
  intros Hl Hrc Hsw. unfold handle_convert, bind, yield. cbv beta iota.
  rewrite (convert_pdf_zero env _ _ _ _ _ _ p Hl Hrc). rewrite Hsw.
  cbv beta iota. unfold ret, logged. simpl. rewrite <- app_assoc. reflexivity.
Qed.

(** The running example with a child that prints [Error count: 0]. *)
Lemma error_prefixed_report_example :
  handle_convert Demo.env_error_report (Some Demo.doc) Demo.output_dir
    true false Demo.modern start
  = (mkTrace
       (invoked start
          ++ [convert_pdf_cmd (name Demo.doc) Demo.output_dir true false Demo.modern])
       (yielded start ++ [mark_wait ++ lit " Reading PDF..."]
          ++ [mark_fail ++ lit " "
                ++ stdout (mkCompleted 0 (lit "Error count: 0") [])]),
     inr None).
Proof.
  apply (error_prefixed_report_is_failure Demo.env_error_report Demo.doc
           Demo.output_dir true false Demo.modern
           (mkCompleted 0 (lit "Error count: 0") []) start).
  - reflexivity.
  - reflexivity.
  - reflexivity.
Defined.

(* ===================================================================== *)
(** ** The batch handler *)
(* ===================================================================== *)



(* ===================================================================== *)
(** ** Every way the invoker can end *)
(* ===================================================================== *)

Lemma convert_pdf_eq (env : Env) (pdf_path output_dir : str)
    (body_only no_toc : bool) (theme : str) (t : trace) :
  convert_pdf env pdf_path output_dir body_only no_toc theme t
  = (logged t (convert_pdf_cmd pdf_path output_dir body_only no_toc theme),
     convert_outcome env
       (convert_pdf_cmd pdf_path output_dir body_only no_toc theme)).
Proof.
  unfold convert_pdf, convert_outcome, try_except, bind, subprocess_run.
  destruct (launch env _) as [e|p].
  - destruct e; reflexivity.
  - destruct (returncode p =? 0)%Z; reflexivity.
Qed.

Lemma convert_folder_eq (env : Env) (folder_path output_dir : str)
    (body_only no_toc : bool) (theme : str) (t : trace) :
  convert_folder env folder_path output_dir body_only no_toc theme t
  = (logged t (convert_folder_cmd folder_path output_dir body_only no_toc theme),
     convert_outcome env
       (convert_folder_cmd folder_path output_dir body_only no_toc theme)).
Proof.
  unfold convert_folder, convert_outcome, try_except, bind, subprocess_run.
  destruct (launch env _) as [e|p].
  - destruct e; reflexivity.
  - destruct (returncode p =? 0)%Z; reflexivity.
Qed.

Lemma startswith_Error (detail : str) :
  startswith (lit "Error") (lit "Error: " ++ detail) = true.
Proof. reflexivity. Qed.





(** X2.  The source path is the first argument after the executable, for
    the single file and for the batch command alike, and the single-file
    command has between two and eight elements. *)
Theorem source_is_first_argument (source output_dir : str)
    (body_only no_toc : bool) (theme : str) :
  (exists rest : list str,
     convert_pdf_cmd source output_dir body_only no_toc theme
     = PDF2HTML_SCRIPT :: source :: rest
     /\ (List.length rest <= 6)%nat)
  /\ (exists rest : list str,
        convert_folder_cmd source output_dir body_only no_toc theme
        = PDF2HTML_SCRIPT :: source :: rest).
Proof.
  split.
  - unfold convert_pdf_cmd.
    destruct (truthy output_dir), body_only, no_toc, (truthy theme);
      cbn [app]; eexists; (split; [reflexivity | cbn [List.length]; lia]).
  - eexists. reflexivity.
Qed.

(* ===================================================================== *)
(** ** Every way the single-file handler can end *)
(* ===================================================================== *)

(** X3.  Given a file, [handle_convert] hands the system exactly one
    command, the one [convert_pdf] builds, whatever happens afterwards; its
    first message is the reading notice, and at most two messages follow. *)
Theorem handle_convert_one_command (env : Env) (f : UploadedFile)
    (output_dir : str) (body_only no_toc : bool) (theme : str) (t : trace) :
  invoked (fst (handle_convert env (Some f) output_dir body_only no_toc theme t))
  = invoked t ++ [convert_pdf_cmd (name f) output_dir body_only no_toc theme]
  /\ exists rest : list str,
       yielded (fst (handle_convert env (Some f) output_dir body_only no_toc
                       theme t))
       = yielded t ++ (mark_wait ++ lit " Reading PDF...") :: rest
       /\ (List.length rest <= 2)%nat.
Proof.
  unfold handle_convert, bind, yield. cbv beta iota.
  rewrite convert_pdf_eq. cbv beta iota.
  destruct (convert_outcome env _) as [e|r].
  - split; [reflexivity |]. exists []. split; [reflexivity | simpl; lia].
  - destruct (startswith (lit "Error") r).
    + split; [reflexivity |]. eexists. cbn [fst yielded logged invoked].
      rewrite <- app_assoc. split; [reflexivity | simpl; lia].
    + unfold lift, try_except, except_Exception, bind, yield, ret.
      destruct (stat_size env _) as [e|size].
      * split; [reflexivity |]. exists []. split; [reflexivity | simpl; lia].
      * cbv beta iota. destruct (read_text env _) as [e|content];
          (split; [reflexivity |]); eexists; cbn [fst yielded logged invoked];
          repeat rewrite <- app_assoc; (split; [reflexivity | simpl; lia]).
Qed.



(** X5.  When the child exits with a non-zero status, [handle_convert]
    yields the reading notice and then the failure mark followed by the
    error text of [convert_pdf], and ends normally: the output file is
    neither sized nor read. *)
Theorem handle_convert_nonzero_exit (env : Env) (f : UploadedFile)
    (output_dir : str) (body_only no_toc : bool) (theme : str)
    (p : CompletedProcess) (t : trace) :
  launch env (convert_pdf_cmd (name f) output_dir body_only no_toc theme) = inr p ->
  returncode p <> 0%Z ->
  handle_convert env (Some f) output_dir body_only no_toc theme t
  = (mkTrace
       (invoked t ++ [convert_pdf_cmd (name f) output_dir body_only no_toc theme])
       (yielded t
          ++ [mark_wait ++ lit " Reading PDF...";
              mark_fail ++ lit " Error: "
                ++ CalledProcessError_str (isprintable env) (signal_name env)
                     (returncode p)
                     (convert_pdf_cmd (name f) output_dir body_only no_toc theme)]),
     inr None).
Proof.
  intros Hl Hrc. unfold handle_convert, bind, yield. cbv beta iota.
  rewrite (convert_pdf_nonzero env _ _ _ _ _ _ p Hl Hrc).
  cbv beta iota. rewrite startswith_Error.
  unfold ret, logged. cbn [invoked yielded]. rewrite <- app_assoc. reflexivity.
Qed.

(** The running example with a child that exits with status 1. *)
Lemma handle_convert_exit_one :
  handle_convert Demo.env_exit1 (Some Demo.doc) Demo.output_dir true false
    Demo.modern start
  = (mkTrace
       (invoked start
          ++ [convert_pdf_cmd (name Demo.doc) Demo.output_dir true false Demo.modern])
       (yielded start
          ++ [mark_wait ++ lit " Reading PDF...";
              mark_fail ++ lit " Error: "
                ++ CalledProcessError_str (isprintable Demo.env_exit1)
                     (signal_name Demo.env_exit1)
                     (returncode (mkCompleted 1 (lit "partial") (lit "boom")))
                     (convert_pdf_cmd (name Demo.doc) Demo.output_dir true false
                        Demo.modern)]),
     inr None).
Proof.
  apply (handle_convert_nonzero_exit Demo.env_exit1 Demo.doc Demo.output_dir
           true false Demo.modern (mkCompleted 1 (lit "partial") (lit "boom"))
           start).
  - reflexivity.
  - simpl. lia.
Defined.




(* ===================================================================== *)
(** ** Every way the batch handler can end *)
(* ===================================================================== *)

(** X8.  No exception leaves [handle_batch], whatever the folder, the
    listing and the child do, and it hands the system at most one
    command. *)
Theorem handle_batch_never_raises (env : Env) (folder_path output_dir : str)
    (body_only no_toc : bool) (theme : str) (t : trace) :
  (exists v : option str,
     snd (handle_batch env folder_path output_dir body_only no_toc theme t) = inr v)
  /\ exists commands : list (list str),
       invoked (fst (handle_batch env folder_path output_dir body_only no_toc
                       theme t))
       = invoked t ++ commands
       /\ (List.length commands <= 1)%nat.
Proof.
  unfold handle_batch.
  destruct (truthy folder_path); cbn [negb].
  2:{ split; [eexists; reflexivity |]. exists []. rewrite app_nil_r.
      split; [reflexivity | simpl; lia]. }
  destruct (isdir env (strip folder_path)); cbn [negb].
  2:{ split; [eexists; reflexivity |]. exists []. rewrite app_nil_r.
      split; [reflexivity | simpl; lia]. }
  unfold try_except, except_Exception, bind, yield, lift, ret. cbv beta iota.
  destruct (iterdir env _) as [e|entries]; cbv beta iota.
  - split; [eexists; reflexivity |]. exists []. cbn [fst invoked].
    rewrite app_nil_r. split; [reflexivity | simpl; lia].
  - rewrite convert_folder_eq. cbv beta iota.
    destruct (convert_outcome env _) as [e|r].
    + split; [eexists; reflexivity |]. eexists. cbn [fst invoked logged].
      split; [reflexivity | simpl; lia].
    + destruct (startswith (lit "Error") r);
        (split; [eexists; reflexivity |]); eexists; cbn [fst invoked logged];
        (split; [reflexivity | simpl; lia]).
Qed.

(** X9.  When the folder is a directory that cannot be listed,
    [handle_batch] yields the scanning notice and a batch error carrying
    the text of the exception, ends normally, and does not start the
    executable. *)
Theorem handle_batch_unlistable (env : Env) (folder_path output_dir : str)
    (body_only no_toc : bool) (theme : str) (e : exn) (t : trace) :
  folder_path <> [] ->
  isdir env (strip folder_path) = true ->
  iterdir env (strip folder_path) = inl e ->
  handle_batch env folder_path output_dir body_only no_toc theme t
  = (mkTrace (invoked t)
       (yielded t
          ++ [mark_wait ++ lit " Scanning folder...";
              mark_fail ++ lit " Batch error: " ++ exn_str env e]),
     inr None).
Proof.
  intros Hne Hdir Hlist. unfold handle_batch.
  rewrite (truthy_nonempty _ Hne), Hdir. cbn [negb].
  unfold try_except, except_Exception, bind, yield, lift, ret. cbv beta iota.
  rewrite Hlist. cbn [invoked yielded]. rewrite <- app_assoc. reflexivity.
Qed.

(** The folder [pdfs] when listing it is refused. *)
Lemma handle_batch_unlistable_pdfs :
  handle_batch Cases.env_batch_unlistable (lit "pdfs") Demo.output_dir true false
    Demo.modern start
  = (mkTrace (invoked start)
       (yielded start
          ++ [mark_wait ++ lit " Scanning folder...";
              mark_fail ++ lit " Batch error: "
                ++ exn_str Cases.env_batch_unlistable
                     (Demo.PermissionError
                        (lit "[Errno 13] Permission denied: 'pdfs'"))]),
     inr None).
Proof.
  apply (handle_batch_unlistable Cases.env_batch_unlistable (lit "pdfs")
           Demo.output_dir true false Demo.modern
           (Demo.PermissionError (lit "[Errno 13] Permission denied: 'pdfs'"))
           start).
  - vm_compute. discriminate.
  - reflexivity.
  - reflexivity.
Defined.

(** X10.  When the folder is listed and the child exits with status zero
    with a report that does not start with [Error], [handle_batch] yields
    four messages and ends normally.  The count of the second message and
    of the last one is the number of listed entries whose lower-cased
    suffix is [.pdf], taken before the child runs; the last message names
    the stripped folder and the output directory as it was typed, followed
    by [/index.html]. *)
Theorem handle_batch_success (env : Env) (folder_path output_dir : str)
    (body_only no_toc : bool) (theme : str) (entries : list str)
    (p : CompletedProcess) (t : trace) :
  folder_path <> [] ->
  isdir env (strip folder_path) = true ->
  iterdir env (strip folder_path) = inr entries ->
  launch env (convert_folder_cmd (strip folder_path) output_dir body_only no_toc
                theme) = inr p ->
  returncode p = 0%Z ->
  startswith (lit "Error") (stdout p) = false ->
  handle_batch env folder_path output_dir body_only no_toc theme t
  = (mkTrace
       (invoked t
          ++ [convert_folder_cmd (strip folder_path) output_dir body_only no_toc
                theme])
       (yielded t
          ++ [mark_wait ++ lit " Scanning folder...";
              mark_stat ++ lit " Found " ++ decimal (pdf_count_of env entries)
                ++ lit " PDF files";
              mark_wait ++ lit " Starting batch conversion...";
              nl ++ mark_done ++ lit " Batch conversion complete!" ++ nl ++ nl
                ++ mark_dir ++ lit " Folder: " ++ strip folder_path ++ nl
                ++ mark_stat ++ lit " Processed: "
                ++ decimal (pdf_count_of env entries) ++ lit " files" ++ nl
                ++ mark_dir ++ lit " Output: " ++ output_dir
                ++ lit "/index.html" ++ nl ++ nl
                ++ lit "You can now deploy this directory to Vercel." ++ nl
                ++ lit "            "]),
     inr None).
Proof.
  intros Hne Hdir Hlist Hl Hrc Hsw. unfold handle_batch.
  rewrite (truthy_nonempty _ Hne), Hdir. cbn [negb].
  unfold try_except, except_Exception, bind, yield, lift, ret. cbv beta iota.
  rewrite Hlist. cbv beta iota.
  rewrite (convert_folder_zero env _ _ _ _ _ _ p Hl Hrc). cbv beta iota.
  rewrite Hsw. unfold logged, pdf_count_of. cbn [invoked yielded].
  repeat rewrite <- app_assoc. reflexivity.
Qed.

(** The folder [ pdfs ] with four entries, two of them PDF files. *)
Lemma handle_batch_success_pdfs :
  handle_batch Cases.env_batch_ok (lit " pdfs ") Demo.output_dir true false
    Demo.modern start
  = (mkTrace
       (invoked start
          ++ [convert_folder_cmd (strip (lit " pdfs ")) Demo.output_dir true false
                Demo.modern])
       (yielded start
          ++ [mark_wait ++ lit " Scanning folder...";
              mark_stat ++ lit " Found "
                ++ decimal (pdf_count_of Cases.env_batch_ok Cases.four_entries)
                ++ lit " PDF files";
              mark_wait ++ lit " Starting batch conversion...";
              nl ++ mark_done ++ lit " Batch conversion complete!" ++ nl ++ nl
                ++ mark_dir ++ lit " Folder: " ++ strip (lit " pdfs ") ++ nl
                ++ mark_stat ++ lit " Processed: "
                ++ decimal (pdf_count_of Cases.env_batch_ok Cases.four_entries)
                ++ lit " files" ++ nl
                ++ mark_dir ++ lit " Output: " ++ Demo.output_dir
                ++ lit "/index.html" ++ nl ++ nl
                ++ lit "You can now deploy this directory to Vercel." ++ nl
                ++ lit "            "]),
     inr None).
Proof.
  apply (handle_batch_success Cases.env_batch_ok (lit " pdfs ") Demo.output_dir
           true false Demo.modern Cases.four_entries
           (mkCompleted 0 (lit "2 files converted") []) start).
  - vm_compute. discriminate.
  - reflexivity.
  - reflexivity.
  - reflexivity.
  - reflexivity.
  - reflexivity.
Defined.

(** X11.  When the folder is listed and the child exits with a non-zero
    status, [handle_batch] yields the scanning notice, the count, the
    starting notice and the failure mark followed by the error text of
    [convert_folder], and ends normally. *)
Theorem handle_batch_nonzero_exit (env : Env) (folder_path output_dir : str)
    (body_only no_toc : bool) (theme : str) (entries : list str)
    (p : CompletedProcess) (t : trace) :
  folder_path <> [] ->
  isdir env (strip folder_path) = true ->
  iterdir env (strip folder_path) = inr entries ->
  launch env (convert_folder_cmd (strip folder_path) output_dir body_only no_toc
                theme) = inr p ->
  returncode p <> 0%Z ->
  handle_batch env folder_path output_dir body_only no_toc theme t
  = (mkTrace
       (invoked t
          ++ [convert_folder_cmd (strip folder_path) output_dir body_only no_toc
                theme])
       (yielded t
          ++ [mark_wait ++ lit " Scanning folder...";
              mark_stat ++ lit " Found " ++ decimal (pdf_count_of env entries)
                ++ lit " PDF files";
              mark_wait ++ lit " Starting batch conversion...";
              mark_fail ++ lit " Error: "
                ++ CalledProcessError_str (isprintable env) (signal_name env)
                     (returncode p)
                     (convert_folder_cmd (strip folder_path) output_dir body_only
                        no_toc theme)]),
     inr None).
Proof.
  intros Hne Hdir Hlist Hl Hrc. unfold handle_batch.
  rewrite (truthy_nonempty _ Hne), Hdir. cbn [negb].
  unfold try_except, except_Exception, bind, yield, lift, ret. cbv beta iota.
  rewrite Hlist. cbv beta iota.
  rewrite (convert_folder_nonzero env _ _ _ _ _ _ p Hl Hrc). cbv beta iota.
  rewrite startswith_Error. unfold logged, pdf_count_of. cbn [invoked yielded].
  repeat rewrite <- app_assoc. reflexivity.
Qed.

(** The folder [pdfs] with a child that exits with status 2. *)
Lemma handle_batch_exit_two :
  handle_batch Cases.env_batch_exit2 (lit "pdfs") Demo.output_dir true false
    Demo.modern start
  = (mkTrace
       (invoked start
          ++ [convert_folder_cmd (strip (lit "pdfs")) Demo.output_dir true false
                Demo.modern])
       (yielded start
          ++ [mark_wait ++ lit " Scanning folder...";
              mark_stat ++ lit " Found "
                ++ decimal (pdf_count_of Cases.env_batch_exit2 Cases.four_entries)
                ++ lit " PDF files";
              mark_wait ++ lit " Starting batch conversion...";
              mark_fail ++ lit " Error: "
                ++ CalledProcessError_str (isprintable Cases.env_batch_exit2)
                     (signal_name Cases.env_batch_exit2)
                     (returncode (mkCompleted 2 [] (lit "bad input")))
                     (convert_folder_cmd (strip (lit "pdfs")) Demo.output_dir true
                        false Demo.modern)]),
     inr None).
Proof.
  apply (handle_batch_nonzero_exit Cases.env_batch_exit2 (lit "pdfs")
           Demo.output_dir true false Demo.modern Cases.four_entries
           (mkCompleted 2 [] (lit "bad input")) start).
  - vm_compute. discriminate.
  - reflexivity.
  - reflexivity.
  - reflexivity.
  - simpl. lia.
Defined.

(* ===================================================================== *)
(** ** Stripping *)
(* ===================================================================== *)

Lemma dropwhile_idem (f : char -> bool) (s : str) :
  dropwhile f (dropwhile f s) = dropwhile f s.
Proof.
  induction s as [|c s IH]; simpl; [reflexivity |].
  destruct (f c) eqn:E; [exact IH | simpl; rewrite E; reflexivity].
Qed.

Lemma dropwhile_head (f : char -> bool) (s : str) (c : char) (rest : str) :
  dropwhile f s = c :: rest -> f c = false.
Proof.
  induction s as [|a s IH]; simpl; [discriminate |].
  destruct (f a) eqn:E; [exact IH |].
  intros H. injection H as <- _. exact E.
Qed.

Lemma dropwhile_snoc_keep (f : char -> bool) (l : str) (c : char) :
  f c = false -> dropwhile f (l ++ [c]) = dropwhile f l ++ [c].
Proof.
  intros Hc. induction l as [|a l IH]; simpl.
  - rewrite Hc. reflexivity.
  - destruct (f a); [exact IH | reflexivity].
Qed.

Lemma rstrip_by_cons_keep (f : char -> bool) (c : char) (s : str) :
  f c = false -> rstrip_by f (c :: s) = c :: rstrip_by f s.
Proof.
  intros Hc. unfold rstrip_by. simpl rev.
  rewrite (dropwhile_snoc_keep f _ c Hc). apply rev_unit.
Qed.

Lemma rstrip_by_idem (f : char -> bool) (s : str) :
  rstrip_by f (rstrip_by f s) = rstrip_by f s.
Proof.
  unfold rstrip_by. rewrite rev_involutive, dropwhile_idem. reflexivity.
Qed.

Lemma rstrip_by_snoc_drop (f : char -> bool) (s : str) (c : char) :
  f c = true -> rstrip_by f (s ++ [c]) = rstrip_by f s.
Proof.
  intros Hc. unfold rstrip_by. rewrite rev_unit. simpl. rewrite Hc. reflexivity.
Qed.

(** [s.strip().strip() == s.strip()] *)
Lemma strip_idem (s : str) : strip (strip s) = strip s.
Proof.
  unfold strip, lstrip_by.
  destruct (dropwhile isspace s) as [|c rest] eqn:E.
  - reflexivity.
  - pose proof (dropwhile_head isspace s c rest E) as Hc.
    rewrite (rstrip_by_cons_keep isspace c rest Hc).
    simpl dropwhile. rewrite Hc.
    rewrite <- (rstrip_by_cons_keep isspace c rest Hc).
    apply rstrip_by_idem.
Qed.

(** X12.  White space around the folder path makes no difference to
    [handle_batch]: as long as something is left after stripping, the
    handler does on the typed path exactly what it does on the stripped
    one. *)
Theorem handle_batch_ignores_padding (env : Env) (folder_path output_dir : str)
    (body_only no_toc : bool) (theme : str) (t : trace) :
  strip folder_path <> [] ->
  handle_batch env folder_path output_dir body_only no_toc theme t
  = handle_batch env (strip folder_path) output_dir body_only no_toc theme t.
Proof.
  intros Hne. unfold handle_batch.
  assert (Hraw : folder_path <> []) by (intros ->; apply Hne; reflexivity).
  rewrite (truthy_nonempty _ Hraw), (truthy_nonempty _ Hne), strip_idem.
  reflexivity.
Qed.

(** The folder typed as [ pdfs ] and as [pdfs]. *)
Lemma handle_batch_ignores_padding_pdfs :
  handle_batch Cases.env_batch_ok (lit " pdfs ") Demo.output_dir true false
    Demo.modern start
  = handle_batch Cases.env_batch_ok (strip (lit " pdfs ")) Demo.output_dir
      true false Demo.modern start.
Proof.
  apply (handle_batch_ignores_padding Cases.env_batch_ok (lit " pdfs ")
           Demo.output_dir true false Demo.modern start).
  vm_compute. discriminate.
Defined.

Lemma rstrip_slash_slashes (s : str) (n : nat) :
  rstrip_slash (s ++ repeat 47 n) = rstrip_slash s.
Proof.
  revert s. induction n as [|n IH]; intros s; simpl.
  - rewrite app_nil_r. reflexivity.
  - change (47 :: repeat 47 n) with ([47] ++ repeat 47 n).
    rewrite app_assoc, IH. apply rstrip_by_snoc_drop. reflexivity.
Qed.

(** X13.  The path [handle_convert] derives for the preview does not
    depend on how many slashes end the output directory, while the command
    it runs passes the output directory on as it was typed. *)
Theorem trailing_slashes_keep_preview_path (env : Env)
    (pdf_path output_dir : str) (body_only no_toc : bool) (theme : str)
    (n : nat) :
  output_file_of env pdf_path (output_dir ++ repeat 47 n)
  = output_file_of env pdf_path output_dir
  /\ (output_dir <> [] ->
      convert_pdf_cmd pdf_path (output_dir ++ repeat 47 n) body_only no_toc theme
      = [PDF2HTML_SCRIPT; pdf_path; lit "-o"; output_dir ++ repeat 47 n]
          ++ (if body_only then [lit "--body-only"] else [])
          ++ (if no_toc then [lit "--no-toc"] else [])
          ++ (if truthy theme then [lit "--theme"; theme] else [])).
Proof.
  split.
  - unfold output_file_of. rewrite rstrip_slash_slashes. reflexivity.
  - intros Hne. unfold convert_pdf_cmd.
    assert (Ht : truthy (output_dir ++ repeat 47 n) = true).
    { destruct output_dir; [contradiction | reflexivity]. }
    rewrite Ht. destruct body_only, no_toc, (truthy theme); reflexivity.
Qed.

(** The output directory typed as [output] followed by three slashes. *)
Lemma trailing_slashes_output :
  convert_pdf_cmd Demo.pdf_path (lit "output" ++ repeat 47 3) true false Demo.modern
  = [PDF2HTML_SCRIPT; Demo.pdf_path; lit "-o"; lit "output" ++ repeat 47 3]
      ++ (if true then [lit "--body-only"] else [])
      ++ (if false then [lit "--no-toc"] else [])
      ++ (if truthy Demo.modern then [lit "--theme"; Demo.modern] else []).
Proof.
  apply (proj2 (trailing_slashes_keep_preview_path Demo.env_no_output
                  Demo.pdf_path (lit "output") true false Demo.modern 3)).
  vm_compute. discriminate.
Defined.

(* ===================================================================== *)
(** ** The preview against the command that runs *)
(* ===================================================================== *)

(** X14.  When the output directory is not the default [output/] and the
    theme is not the default [modern], the parts [generate_command] shows
    for a file are exactly the command [convert_pdf] runs for it. *)
Theorem preview_equals_command (f : UploadedFile) (output_dir : str)
    (body_only no_toc : bool) (theme : str) :
  output_dir <> lit "output/" ->
  theme <> lit "modern" ->
  generate_command_parts (Some f) output_dir body_only no_toc theme
  = convert_pdf_cmd (name f) output_dir body_only no_toc theme.
Proof.
  intros Hout Htheme. unfold generate_command_parts, convert_pdf_cmd.
  rewrite (str_eqb_neq _ _ Hout), (str_eqb_neq _ _ Htheme).
  cbn [negb]. rewrite !andb_true_r. reflexivity.
Qed.

(** The output directory [site/] and the theme [minimal]. *)
Lemma preview_equals_command_site :
  generate_command_parts (Some Demo.doc) (lit "site/") true false Demo.minimal
  = convert_pdf_cmd (name Demo.doc) (lit "site/") true false Demo.minimal.
Proof.
  apply (preview_equals_command Demo.doc (lit "site/") true false Demo.minimal).
  - vm_compute. discriminate.
  - vm_compute. discriminate.
Defined.

(** X15.  For every request with a file, each part of the preview is an
    argument of the command that runs, and the command is longer than the
    preview by two elements when the output directory is the default
    [output/] and by two more when the theme is the default [modern]. *)
Theorem preview_within_command (f : UploadedFile) (output_dir : str)
    (body_only no_toc : bool) (theme : str) :
  incl (generate_command_parts (Some f) output_dir body_only no_toc theme)
       (convert_pdf_cmd (name f) output_dir body_only no_toc theme)
  /\ List.length (convert_pdf_cmd (name f) output_dir body_only no_toc theme)
     = (List.length (generate_command_parts (Some f) output_dir body_only no_toc
                       theme)
        + (if str_eqb output_dir (lit "output/") then 2 else 0)
        + (if str_eqb theme (lit "modern") then 2 else 0))%nat.
Proof.
  unfold generate_command_parts, convert_pdf_cmd, PDF2HTML_SCRIPT, str_eqb.
  destruct (str_eq_dec output_dir (lit "output/")) as [->|Hout];
    destruct (str_eq_dec theme (lit "modern")) as [->|Htheme];
    cbn [negb andb truthy lit map list_ascii_of_string];
    rewrite ?andb_true_r, ?andb_false_r.
  - split.
    + destruct body_only, no_toc; intros x Hx;
        repeat rewrite in_app_iff in *; cbn [In] in *; tauto.
    + destruct body_only, no_toc; repeat rewrite length_app; simpl; lia.
  - split.
    + destruct body_only, no_toc, (truthy theme); intros x Hx;
        repeat rewrite in_app_iff in *; cbn [In] in *; tauto.
    + destruct body_only, no_toc, (truthy theme);
        repeat rewrite length_app; simpl; lia.
  - split.
    + destruct body_only, no_toc, (truthy output_dir); intros x Hx;
        repeat rewrite in_app_iff in *; cbn [In] in *; tauto.
    + destruct body_only, no_toc, (truthy output_dir);
        repeat rewrite length_app; simpl; lia.
  - split.
    + destruct body_only, no_toc, (truthy output_dir), (truthy theme);
        intros x Hx; repeat rewrite in_app_iff in *; cbn [In] in *; tauto.
    + destruct body_only, no_toc, (truthy output_dir), (truthy theme);
        repeat rewrite length_app; simpl; lia.
Qed.

(** X16.  [verify_pdf2html] answers with the success mark exactly when the
    executable exists and with the failure mark exactly when it does not,
    and either answer spells out the path of the executable. *)
Theorem verify_pdf2html_marks (path_exists : str -> bool) :
  startswith mark_done (verify_pdf2html path_exists)
  = path_exists PDF2HTML_SCRIPT
  /\ startswith mark_fail (verify_pdf2html path_exists)
     = negb (path_exists PDF2HTML_SCRIPT)
  /\ contains PDF2HTML_SCRIPT (verify_pdf2html path_exists) = true.
Proof.
  unfold verify_pdf2html.
  destruct (path_exists PDF2HTML_SCRIPT); vm_compute; auto.
Qed.

(** X17.  Without a file [generate_command] still gives a preview: the
    same parts as with a file, less the file name that would come second. *)
Theorem preview_without_file (f : UploadedFile) (output_dir : str)
    (body_only no_toc : bool) (theme : str) :
  exists rest : list str,
    generate_command_parts None output_dir body_only no_toc theme
    = PDF2HTML_SCRIPT :: rest
    /\ generate_command_parts (Some f) output_dir body_only no_toc theme
       = PDF2HTML_SCRIPT :: name f :: rest.
Proof.
  unfold generate_command_parts.
  destruct (truthy output_dir && negb (str_eqb output_dir (lit "output/"))),
    body_only, no_toc, (truthy theme && negb (str_eqb theme (lit "modern")));
    cbn [app]; eexists; split; reflexivity.
Qed.

Lemma convert_pdf_cmd_head (pdf_path output_dir : str)
    (body_only no_toc : bool) (theme : str) :
  exists rest : list str,
    convert_pdf_cmd pdf_path output_dir body_only no_toc theme
    = PDF2HTML_SCRIPT :: pdf_path :: rest.
Proof.
  unfold convert_pdf_cmd.
  destruct (truthy output_dir), body_only, no_toc, (truthy theme);
    cbn [app]; eexists; reflexivity.
Qed.

Lemma repr_script (printable : char -> bool) :
  repr_str printable PDF2HTML_SCRIPT = lit "'/opt/pdf2html/pdf2html'".
Proof. vm_compute. reflexivity. Qed.

Lemma error_text_prefix (printable : char -> bool) (signals : Z -> option str)
    (rc : Z) (source : str) (rest : list str) :
  startswith (lit "Error: Command '['/opt/pdf2html/pdf2html', ")
    (lit "Error: "
       ++ CalledProcessError_str printable signals rc
            (PDF2HTML_SCRIPT :: source :: rest))
  = true.
Proof.
  unfold CalledProcessError_str, repr_list.
  cbn [map join]. rewrite repr_script.
  destruct (rc <? 0)%Z; [destruct (signals (- rc)%Z) |]; reflexivity.
Qed.

(** X18.  After a non-zero exit the error text of [convert_pdf] and of
    [convert_folder] opens with [Error: Command '['/opt/pdf2html/pdf2html', ]:
    it names the executable first, whatever the request, the exit status
    and the platform's tables are. *)
Theorem error_text_names_executable (env : Env) (source output_dir : str)
    (body_only no_toc : bool) (theme : str) (p : CompletedProcess) (t : trace) :
  (launch env (convert_pdf_cmd source output_dir body_only no_toc theme) = inr p ->
   returncode p <> 0%Z ->
   exists r : str,
     snd (convert_pdf env source output_dir body_only no_toc theme t) = inr r
     /\ startswith (lit "Error: Command '['/opt/pdf2html/pdf2html', ") r = true)
  /\ (launch env (convert_folder_cmd source output_dir body_only no_toc theme) = inr p ->
      returncode p <> 0%Z ->
      exists r : str,
        snd (convert_folder env source output_dir body_only no_toc theme t) = inr r
        /\ startswith (lit "Error: Command '['/opt/pdf2html/pdf2html', ") r = true).
Proof.
  split; intros Hl Hrc.
  - rewrite (convert_pdf_nonzero env _ _ _ _ _ _ p Hl Hrc).
    eexists. split; [reflexivity |].
    destruct (convert_pdf_cmd_head source output_dir body_only no_toc theme)
      as [rest ->].
    apply error_text_prefix.
  - rewrite (convert_folder_nonzero env _ _ _ _ _ _ p Hl Hrc).
    eexists. split; [reflexivity |]. apply error_text_prefix.
Qed.

(** The running example with a child that exits with status 1. *)
Lemma error_text_names_executable_exit_one :
  (exists r : str,
     snd (convert_pdf Demo.env_exit1 Demo.pdf_path Demo.output_dir true false
            Demo.modern start) = inr r
     /\ startswith (lit "Error: Command '['/opt/pdf2html/pdf2html', ") r = true)
  /\ (exists r : str,
        snd (convert_folder Demo.env_exit1 Demo.pdf_path Demo.output_dir true false
               Demo.modern start) = inr r
        /\ startswith (lit "Error: Command '['/opt/pdf2html/pdf2html', ") r = true).
Proof.
  destruct (error_text_names_executable Demo.env_exit1 Demo.pdf_path
              Demo.output_dir true false Demo.modern
              (mkCompleted 1 (lit "partial") (lit "boom")) start)
    as [Hpdf Hfolder].
  split.
  - apply Hpdf; [reflexivity | simpl; lia].
  - apply Hfolder; [reflexivity | simpl; lia].
Defined.
